(** * Study Assistant backend: SM-2 review scheduling and card endpoints

    A shallow embedding of [src/main.py] (the FastAPI handlers
    [create_card], [list_cards] and [review_card]) and of the record
    models of [src/schemas.py].

    - Python [float] is IEEE 754 binary64 with round-to-nearest-even; it
      is modelled by [spec_float] at precision 53 and [emax = 1024].
    - Python [int] is unbounded; it is modelled by [Z].
    - Exceptions are values of [exn]; a computation that may raise
      returns a [result].
    - The document store is a record of collections, each a list of
      documents in natural (insertion) order, threaded through the
      handlers explicitly. A document of a collection has the fields and
      the field types of its schema; the store takes every such
      document, and the timestamps it returns are UTC instants, which
      compare with the handlers' clock. *)

From Stdlib Require Import ZArith List String Ascii Bool Lia.
From Stdlib Require Import Floats.SpecFloat.
Import ListNotations.
Local Open Scope Z_scope.

(** ** Binary64 arithmetic *)

Module Float64.

Definition prec : Z := 53.
Definition emax : Z := 1024.

Definition float : Type := spec_float.

Definition valid (x : float) : bool := valid_binary prec emax x.

(** Nearest binary64 to an integer (infinite when out of range). *)
Definition of_int (n : Z) : float := binary_normalize prec emax n 0 false.

Definition add : float -> float -> float := SFadd prec emax.
Definition sub : float -> float -> float := SFsub prec emax.
Definition mul : float -> float -> float := SFmul prec emax.
Definition div : float -> float -> float := SFdiv prec emax.

Definition ltb : float -> float -> bool := SFltb.
Definition leb : float -> float -> bool := SFleb.

(** The value of a decimal literal [p / q]: the correctly rounded
    quotient of two exactly representable integers. *)
Definition literal (p q : Z) : float := div (of_int p) (of_int q).

(** The literals of [review_card] and of the [Card] schema. *)
Definition c_0_1 : float := Eval vm_compute in literal 1 10.
Definition c_0_08 : float := Eval vm_compute in literal 8 100.
Definition c_0_02 : float := Eval vm_compute in literal 2 100.
Definition c_1_3 : float := Eval vm_compute in literal 13 10.
Definition c_2_5 : float := Eval vm_compute in literal 5 2.
Definition c_2_6 : float := Eval vm_compute in literal 26 10.

(** Rounding of the finite value [m * 2^e] to the nearest integer,
    ties to the even one. *)
Definition round_half_even (m : positive) (e : Z) : Z :=
  match e with
  | Z0 => Zpos m
  | Zpos p => Zpos m * 2 ^ Zpos p
  | Zneg p =>
      let d := 2 ^ Zpos p in
      let q := Zpos m / d in
      let r := Zpos m mod d in
      match 2 * r ?= d with
      | Lt => q
      | Gt => q + 1
      | Eq => if Z.even q then q else q + 1
      end
  end.

End Float64.

Abbreviation float := Float64.float.

(** ** The Python runtime pieces the handlers rely on *)

Inductive exn : Type :=
| HTTPException (status_code : Z) (detail : string)
| InvalidId        (* bson.errors.InvalidId *)
| OverflowError
| ValueError.

Inductive result (A : Type) : Type :=
| Ok (a : A)
| Raise (e : exn).

Arguments Ok {A} a.
Arguments Raise {A} e.

Definition bind {A B : Type} (c : result A) (k : A -> result B) : result B :=
  match c with
  | Ok a => k a
  | Raise e => Raise e
  end.

Notation "x <- c ;; k" := (bind c (fun x => k))
  (at level 61, c at next level, right associativity).

(** [float(n)] for an [int]: correctly rounded, [OverflowError] when the
    rounded value is out of the binary64 range. *)
Definition float_of_int (n : Z) : result float :=
  match Float64.of_int n with
  | S754_infinity _ => Raise OverflowError
  | f => Ok f
  end.

(** [n * x] for an [int] [n] and a [float] [x]: the [int] is converted
    first. *)
Definition int_mul_float (n : Z) (x : float) : result float :=
  f <- float_of_int n ;;
  Ok (Float64.mul f x).

(** [round(x)] for a [float], without [ndigits]: an [int], ties to even;
    [OverflowError] on an infinity and [ValueError] on a NaN. *)
Definition round_float (x : float) : result Z :=
  match x with
  | S754_zero _ => Ok 0
  | S754_infinity _ => Raise OverflowError
  | S754_nan => Raise ValueError
  | S754_finite s m e => Ok (cond_Zopp s (Float64.round_half_even m e))
  end.

(** [max(a, b)] on floats: the first argument unless the second is
    strictly greater. *)
Definition float_max (a b : float) : float :=
  if Float64.ltb a b then b else a.

(** [x or 1] on an [int]. *)
Definition or_1 (x : Z) : Z := if x =? 0 then 1 else x.

(** *** Timestamps

    A [datetime] is a number of microseconds since the Unix epoch, UTC.
    Python represents the years 1 to 9999 only. *)

Definition datetime : Type := Z.

Definition datetime_min : datetime := -62135596800000000.
Definition datetime_max : datetime := 253402300799999999.
Definition microseconds_per_day : Z := 86400000000.

(** [timedelta(days=d)]: the magnitude of [d] is at most 999999999. *)
Definition timedelta_days (d : Z) : result Z :=
  if Z.abs d <=? 999999999 then Ok (d * microseconds_per_day)
  else Raise OverflowError.

(** [t + delta]: [OverflowError] when the date leaves the range. *)
Definition datetime_add (t : datetime) (delta : Z) : result datetime :=
  let t' := t + delta in
  if (datetime_min <=? t') && (t' <=? datetime_max) then Ok t'
  else Raise OverflowError.

(** ** The scheduling computation of [review_card] (lines 128 to 145) *)

Record schedule_state : Type := {
  st_ease : float;
  st_reps : Z;
  st_interval : Z
}.

(** [max(0, min(5, quality))] *)
Definition clamp_quality (quality : Z) : Z := Z.max 0 (Z.min 5 quality).

(** [ease + (0.1 - (5 - quality) * (0.08 + (5 - quality) * 0.02))] *)
Definition ease_step (ease : float) (quality : Z) : result float :=
  inner <- int_mul_float (5 - quality) Float64.c_0_02 ;;
  outer <- int_mul_float (5 - quality) (Float64.add Float64.c_0_08 inner) ;;
  Ok (Float64.add ease (Float64.sub Float64.c_0_1 outer)).

(** [int(round(interval * ease)) or 1] *)
Definition grow_interval (interval : Z) (ease : float) : result Z :=
  p <- int_mul_float interval ease ;;
  r <- round_float p ;;
  Ok (or_1 r).

Definition schedule (payload_quality : Z) (ease : float) (reps interval : Z)
  : result schedule_state :=
  let quality := clamp_quality payload_quality in
  if quality <? 3 then
    Ok {| st_ease := ease; st_reps := 0; st_interval := 1 |}
  else
    interval' <-
      (if reps =? 0 then Ok 1
       else if reps =? 1 then Ok 6
       else grow_interval interval ease) ;;
    ease' <- ease_step ease quality ;;
    let ease'' := float_max Float64.c_1_3 ease' in
    Ok {| st_ease := ease''; st_reps := reps + 1; st_interval := interval' |}.

(** ** Record models ([src/schemas.py]) and request bodies *)

Record Deck : Type := {
  name : string;
  description : option string
}.

Record Card : Type := {
  deck_id : string;
  front : string;
  back : string;
  ease_factor : float;
  interval : Z;
  repetitions : Z;
  next_review : option datetime;
  last_reviewed : option datetime
}.

Record CardReview : Type := {
  card_id : string;
  quality : Z
}.

(** ** Document identifiers

    [ObjectId(s)] accepts a string of 24 hexadecimal digits and raises
    [InvalidId] on any other string; [str(oid)] is the lower-case
    hexadecimal form, which is what an [ObjectId] holds here. *)

Record ObjectId : Type := { oid_hex : string }.

Definition is_hex_digit (c : ascii) : bool :=
  let n := Z.of_nat (nat_of_ascii c) in
  ((48 <=? n) && (n <=? 57)) || ((97 <=? n) && (n <=? 102))
  || ((65 <=? n) && (n <=? 70)).

Definition lower_hex (c : ascii) : ascii :=
  let n := nat_of_ascii c in
  if (65 <=? Z.of_nat n) && (Z.of_nat n <=? 70) then ascii_of_nat (n + 32)
  else c.

Fixpoint string_forallb (p : ascii -> bool) (s : string) : bool :=
  match s with
  | EmptyString => true
  | String c s' => p c && string_forallb p s'
  end.

Fixpoint string_map (f : ascii -> ascii) (s : string) : string :=
  match s with
  | EmptyString => EmptyString
  | String c s' => String (f c) (string_map f s')
  end.

Definition ObjectId_of_string (s : string) : result ObjectId :=
  if (Nat.eqb (String.length s) 24) && string_forallb is_hex_digit s
  then Ok {| oid_hex := string_map lower_hex s |}
  else Raise InvalidId.

Definition str_of_ObjectId (o : ObjectId) : string := oid_hex o.

Definition ObjectId_eqb (a b : ObjectId) : bool :=
  String.eqb (oid_hex a) (oid_hex b).

(** ** The document store

    A stored document is the record's fields under a generated [_id].
    A collection lists its documents in natural order. *)

Record document (A : Type) : Type := {
  _id : ObjectId;
  fields : A
}.

Arguments _id {A} d.
Arguments fields {A} d.

Record Db : Type := {
  db_deck : list (document Deck);
  db_card : list (document Card)
}.

Section Collection.

Context {A : Type}.

(** [count_documents({"_id": oid})] *)
Definition count_documents (oid : ObjectId) (coll : list (document A)) : Z :=
  Z.of_nat (List.length (filter (fun d => ObjectId_eqb (_id d) oid) coll)).

(** [find_one({"_id": oid})]: the first match, [None] without one. *)
Definition find_one (oid : ObjectId) (coll : list (document A))
  : option (document A) :=
  find (fun d => ObjectId_eqb (_id d) oid) coll.

(** [update_one({"_id": oid}, u)]: the first match is updated, the
    others are left as they are. *)
Fixpoint update_one (oid : ObjectId) (u : A -> A) (coll : list (document A))
  : list (document A) :=
  match coll with
  | [] => []
  | d :: rest =>
      if ObjectId_eqb (_id d) oid
      then {| _id := _id d; fields := u (fields d) |} :: rest
      else d :: update_one oid u rest
  end.

(** [insert_one]: the new document comes last in natural order. *)
Definition insert_one (new_id : ObjectId) (a : A) (coll : list (document A))
  : list (document A) :=
  coll ++ [{| _id := new_id; fields := a |}].

End Collection.

(** Modelled from the spec: the [database] module is not part of the
    sources. [create_document(collection, record)] is "insert returns
    generated id"; the identifier the store generates is the argument
    [new_id]. *)
Definition create_document_card (card : Card) (new_id : ObjectId) (db : Db)
  : string * Db :=
  (str_of_ObjectId new_id,
   {| db_deck := db_deck db; db_card := insert_one new_id card (db_card db) |}).

(** Modelled from the spec: the [database] module is not part of the
    sources. [get_documents(collection, filter)] is "query by filter
    returns matching records"; the only filter [list_cards] builds is
    empty or an equality on [deck_id]. *)
Definition get_documents_card (q : option string) (db : Db)
  : list (document Card) :=
  match q with
  | None => db_card db
  | Some v => filter (fun d => String.eqb (deck_id (fields d)) v) (db_card db)
  end.

(** ** [create_card] *)

Definition create_card (card : Card) (new_id : ObjectId) (db : Db)
  : result string * Db :=
  match ObjectId_of_string (deck_id card) with
  | Raise e => (Raise e, db)
  | Ok oid =>
      if count_documents oid (db_deck db) =? 0
      then (Raise (HTTPException 404 "Deck not found"), db)
      else
        let '(cid, db') := create_document_card card new_id db in
        (Ok cid, db')
  end.

(** ** [list_cards] *)

(** An item of the response: the document with [_id] popped and its
    string form stored under [id]. *)
Record card_item : Type := {
  id : string;
  item : Card
}.

Definition to_item (d : document Card) : card_item :=
  {| id := str_of_ObjectId (_id d); item := fields d |}.

(** [next_review is None or next_review <= now] *)
Definition is_due (now : datetime) (c : Card) : bool :=
  match next_review c with
  | None => true
  | Some t => t <=? now
  end.

(** [if deck_id:] holds for a non-empty string only. *)
Definition deck_query (deck_id_param : option string) : option string :=
  match deck_id_param with
  | Some EmptyString => None
  | other => other
  end.

Fixpoint collect_items (due_only : bool) (now : datetime)
    (items : list (document Card)) (acc : list card_item) : list card_item :=
  match items with
  | [] => acc
  | it :: rest =>
      let it' := to_item it in
      if due_only then
        if is_due now (item it')
        then collect_items due_only now rest (acc ++ [it'])
        else collect_items due_only now rest acc
      else collect_items due_only now rest (acc ++ [it'])
  end.

Definition list_cards (deck_id_param : option string) (due_only : bool)
    (now : datetime) (db : Db) : list card_item :=
  let items := get_documents_card (deck_query deck_id_param) db in
  collect_items due_only now items [].

(** ** [review_card] *)

(** A field assignment of a [$set] update on a card document. *)
Inductive card_assignment : Type :=
| Set_deck_id (v : string)
| Set_front (v : string)
| Set_back (v : string)
| Set_ease_factor (v : float)
| Set_interval (v : Z)
| Set_repetitions (v : Z)
| Set_next_review (v : datetime)
| Set_last_reviewed (v : datetime).

Definition assign (c : Card) (a : card_assignment) : Card :=
  match a with
  | Set_deck_id v =>
      {| deck_id := v; front := front c; back := back c;
         ease_factor := ease_factor c; interval := interval c;
         repetitions := repetitions c; next_review := next_review c;
         last_reviewed := last_reviewed c |}
  | Set_front v =>
      {| deck_id := deck_id c; front := v; back := back c;
         ease_factor := ease_factor c; interval := interval c;
         repetitions := repetitions c; next_review := next_review c;
         last_reviewed := last_reviewed c |}
  | Set_back v =>
      {| deck_id := deck_id c; front := front c; back := v;
         ease_factor := ease_factor c; interval := interval c;
         repetitions := repetitions c; next_review := next_review c;
         last_reviewed := last_reviewed c |}
  | Set_ease_factor v =>
      {| deck_id := deck_id c; front := front c; back := back c;
         ease_factor := v; interval := interval c;
         repetitions := repetitions c; next_review := next_review c;
         last_reviewed := last_reviewed c |}
  | Set_interval v =>
      {| deck_id := deck_id c; front := front c; back := back c;
         ease_factor := ease_factor c; interval := v;
         repetitions := repetitions c; next_review := next_review c;
         last_reviewed := last_reviewed c |}
  | Set_repetitions v =>
      {| deck_id := deck_id c; front := front c; back := back c;
         ease_factor := ease_factor c; interval := interval c;
         repetitions := v; next_review := next_review c;
         last_reviewed := last_reviewed c |}
  | Set_next_review v =>
      {| deck_id := deck_id c; front := front c; back := back c;
         ease_factor := ease_factor c; interval := interval c;
         repetitions := repetitions c; next_review := Some v;
         last_reviewed := last_reviewed c |}
  | Set_last_reviewed v =>
      {| deck_id := deck_id c; front := front c; back := back c;
         ease_factor := ease_factor c; interval := interval c;
         repetitions := repetitions c; next_review := next_review c;
         last_reviewed := Some v |}
  end.

(** [{"$set": assignments}] *)
Definition apply_set (assignments : list card_assignment) (c : Card) : Card :=
  fold_left assign assignments c.

Record review_response : Type := {
  r_id : string;
  r_ease_factor : float;
  r_repetitions : Z;
  r_interval : Z;
  r_next_review : datetime
}.

(** The handler reads the clock twice: [now_next] at line 147 for
    [next_review], [now_last] at line 155 for [last_reviewed]. A stored
    card holds every field of the schema, at the schema's type: the
    defaults of [doc.get] are not used, and [float(...)] and [int(...)]
    leave the values as they are. *)
Definition review_card (payload : CardReview) (now_next now_last : datetime)
    (db : Db) : result review_response * Db :=
  match ObjectId_of_string (card_id payload) with
  | Raise e => (Raise e, db)
  | Ok oid =>
      match find_one oid (db_card db) with
      | None => (Raise (HTTPException 404 "Card not found"), db)
      | Some doc =>
          let ease := ease_factor (fields doc) in
          let reps := repetitions (fields doc) in
          let iv := interval (fields doc) in
          match
            (st <- schedule (quality payload) ease reps iv ;;
             delta <- timedelta_days (st_interval st) ;;
             nr <- datetime_add now_next delta ;;
             Ok (st, nr))
          with
          | Raise e => (Raise e, db)
          | Ok (st, nr) =>
              let u := [ Set_ease_factor (st_ease st);
                         Set_repetitions (st_reps st);
                         Set_interval (st_interval st);
                         Set_last_reviewed now_last;
                         Set_next_review nr ] in
              (Ok {| r_id := card_id payload;
                     r_ease_factor := st_ease st;
                     r_repetitions := st_reps st;
                     r_interval := st_interval st;
                     r_next_review := nr |},
               {| db_deck := db_deck db;
                  db_card := update_one oid (apply_set u) (db_card db) |})
          end
      end
  end.

(** * Vocabulary of the properties *)

(** [x] is a valid binary64 number within half a unit in the last place
    of the decimal [p / q]: for [x = m * 2^e] with [e < 0],
    [|q * m - p * 2^(-e)| * 2 <= q]. *)
Definition nearest_decimal (x : float) (p q : Z) : bool :=
  Float64.valid x &&
  match x with
  | S754_finite false m (Zneg e) =>
      Z.abs (q * Zpos m - p * 2 ^ Zpos e) * 2 <=? q
  | _ => false
  end.

(** The amount [0.1 - (5 - quality) * (0.08 + (5 - quality) * 0.02)]. *)
Definition ease_delta (quality : Z) : float :=
  let d := Float64.of_int (5 - quality) in
  Float64.sub Float64.c_0_1
    (Float64.mul d (Float64.add Float64.c_0_08 (Float64.mul d Float64.c_0_02))).

(** A value that is not below zero: a zero of either sign, or a
    positive number or infinity. A NaN, which no comparison orders, is
    let through, for [round_float] rejects it. *)
Definition not_negative (x : float) : Prop :=
  match x with
  | S754_zero _ | S754_nan => True
  | S754_infinity s | S754_finite s _ _ => s = false
  end.

(** The card document after the [$set] of a review. *)
Definition reviewed (c : Card) (st : schedule_state)
    (now_last nr : datetime) : Card :=
  {| deck_id := deck_id c; front := front c; back := back c;
     ease_factor := st_ease st; interval := st_interval st;
     repetitions := st_reps st; next_review := Some nr;
     last_reviewed := Some now_last |}.

(** ** Sample data *)

Definition sample_deck_id : string := "64b7f0c2a1e4d5f6a7b8c9d0".
Definition sample_card_id : string := "64b7f0c2a1e4d5f6a7b8c9d1".

Definition sample_deck_oid : ObjectId := {| oid_hex := sample_deck_id |}.
Definition sample_card_oid : ObjectId := {| oid_hex := sample_card_id |}.

(** 2025-11-04T00:00:00Z *)
Definition sample_now : datetime := 1762214400000000.

Definition sample_db : Db :=
  {| db_deck := [ {| _id := sample_deck_oid;
                     fields := {| name := "French"; description := None |} |} ];
     db_card := [] |}.

(** A request body for [create_card] with explicit scheduling fields. *)
Definition sample_card (ease : float) (reps iv : Z) : Card :=
  {| deck_id := sample_deck_id; front := "chat"; back := "cat";
     ease_factor := ease; interval := iv; repetitions := reps;
     next_review := None; last_reviewed := None |}.

(** The store after [create_card] of [sample_card]. *)
Definition sample_db_with (ease : float) (reps iv : Z) : Db :=
  snd (create_card (sample_card ease reps iv) sample_card_oid sample_db).

(** A card of the sample deck with a given [next_review]. *)
Definition sample_scheduled (hex : string) (nr : option datetime)
  : document Card :=
  {| _id := {| oid_hex := hex |};
     fields := {| deck_id := sample_deck_id; front := "chien"; back := "dog";
                  ease_factor := Float64.c_2_5; interval := 1;
                  repetitions := 1; next_review := nr;
                  last_reviewed := None |} |}.

(** Three cards: never scheduled, due a day ago, due in a day. *)
Definition sample_due_db : Db :=
  {| db_deck := db_deck sample_db;
     db_card :=
       [ sample_scheduled "64b7f0c2a1e4d5f6a7b8c9d1" None;
         sample_scheduled "64b7f0c2a1e4d5f6a7b8c9d2"
           (Some (sample_now - microseconds_per_day));
         sample_scheduled "64b7f0c2a1e4d5f6a7b8c9d3"
           (Some (sample_now + microseconds_per_day)) ] |}.

(** ** Statements about the handlers *)

(** Lines 143 and 144 as one computation:
    [max(1.3, ease + (0.1 - (5 - quality) * (0.08 + (5 - quality) * 0.02)))]. *)
Definition sm2_ease_update (ease : float) (quality : Z) : result float :=
  ease' <- ease_step ease quality ;;
  Ok (float_max Float64.c_1_3 ease').

(** The reading of a review with [quality < 3] under which the ease
    factor goes through the update of lines 143 and 144. *)
Definition lapse_applies_ease_update (q : Z) (ease : float) (reps iv : Z) : Prop :=
  q < 3 ->
  forall st, schedule q ease reps iv = Ok st ->
             sm2_ease_update ease (clamp_quality q) = Ok (st_ease st).

(** The ease factor of a card is at least 1.3. *)
Definition ease_floor (c : Card) : Prop :=
  Float64.leb Float64.c_1_3 (ease_factor c) = true.

(** Every card of the store has an ease factor of at least 1.3. *)
Definition ease_floor_db (db : Db) : Prop :=
  Forall (fun d => ease_floor (fields d)) (db_card db).

(** The reading under which every review, of any prior state, ends
    with an interval of at least 1. *)
Definition interval_positive_after_review (q : Z) (ease : float)
    (reps iv : Z) : Prop :=
  forall st, schedule q ease reps iv = Ok st -> 1 <= st_interval st.

(** The deck a [deck_id] string resolves to, when there is one. *)
Definition resolves_to_deck (s : string) (db : Db) : Prop :=
  exists oid d,
    ObjectId_of_string s = Ok oid /\ In d (db_deck db) /\ _id d = oid.

(** The reading under which every creation request without an existing
    deck ends in a 404 and writes nothing. *)
Definition missing_deck_is_404 (card : Card) (new_id : ObjectId) (db : Db)
  : Prop :=
  ~ resolves_to_deck (deck_id card) db ->
  (exists detail,
      fst (create_card card new_id db) = Raise (HTTPException 404 detail))
  /\ snd (create_card card new_id db) = db.

(** A request body whose [deck_id] is not an identifier. *)
Definition malformed_card : Card :=
  {| deck_id := "abc"; front := "chat"; back := "cat";
     ease_factor := Float64.c_2_5; interval := 0; repetitions := 0;
     next_review := None; last_reviewed := None |}.

(** Two card documents with the same [_id], [deck_id], [front] and
    [back]. *)
Definition same_content (d d' : document Card) : Prop :=
  _id d' = _id d
  /\ deck_id (fields d') = deck_id (fields d)
  /\ front (fields d') = front (fields d)
  /\ back (fields d') = back (fields d).

(** * The other handlers and helpers of [src/main.py] *)

(** ** [ObjectIdStr.validate] (lines 30 to 40) *)





(** ** [create_deck] and [list_decks] (lines 78 to 89) *)





(** ** [start_session] and [list_sessions] (lines 169 to 181) *)

Module Session.






End Session.

(** ** Reviews in sequence *)

(** The scheduling state of a card document. *)
Definition state_of (c : Card) : schedule_state :=
  {| st_ease := ease_factor c; st_reps := repetitions c;
     st_interval := interval c |}.

(** The scheduling computation run once per quality, each review
    starting from the state the one before left. *)
Fixpoint review_sequence (qualities : list Z) (st : schedule_state)
  : result schedule_state :=
  match qualities with
  | [] => Ok st
  | q :: rest =>
      st' <- schedule q (st_ease st) (st_reps st) (st_interval st) ;;
      review_sequence rest st'
  end.

(** A scheduling state within the bounds the reviews keep: ease factor
    at least 1.3, interval and repetitions not negative. *)
Definition in_bounds (st : schedule_state) : Prop :=
  Float64.leb Float64.c_1_3 (st_ease st) = true
  /\ 0 <= st_interval st /\ 0 <= st_reps st.

(** A binary64 value that is a number: not a NaN, not an infinity. *)
Definition is_finite (x : float) : bool :=
  match x with
  | S754_zero _ | S754_finite _ _ _ => true
  | S754_infinity _ | S754_nan => false
  end.


(** * Properties *)

(** ** Runs of [schedule] *)

Example schedule_fresh_5 :
  schedule 5 Float64.c_2_5 0 0
  = Ok {| st_ease := Float64.c_2_6; st_reps := 1; st_interval := 1 |}.
Proof. vm_compute. reflexivity. Qed.

Example schedule_compound_4 :
  schedule 4 Float64.c_2_5 2 6
  = Ok {| st_ease := Float64.c_2_5; st_reps := 3; st_interval := 15 |}.
Proof. vm_compute. reflexivity. Qed.

Example schedule_lapse_0 :
  schedule 0 Float64.c_2_5 4 30
  = Ok {| st_ease := Float64.c_2_5; st_reps := 0; st_interval := 1 |}.
Proof. vm_compute. reflexivity. Qed.

(** ** Literals and rounding *)

Lemma literals_nearest :
  nearest_decimal Float64.c_0_1 1 10 = true /\
  nearest_decimal Float64.c_0_08 8 100 = true /\
  nearest_decimal Float64.c_0_02 2 100 = true /\
  nearest_decimal Float64.c_1_3 13 10 = true /\
  nearest_decimal Float64.c_2_5 5 2 = true /\
  nearest_decimal Float64.c_2_6 26 10 = true.
Proof. vm_compute. repeat split. Qed.

(** The arithmetic is that of Python: [0.1 + 0.2] is
    [0.30000000000000004], one unit in the last place above [0.3]. *)
Example binary64_sum :
  Float64.add (Float64.literal 1 10) (Float64.literal 2 10)
  = S754_finite false 5404319552844596 (-54)
  /\ Float64.literal 3 10 = S754_finite false 5404319552844595 (-54).
Proof. split; vm_compute; reflexivity. Qed.

(** [round(0.5) == 0], [round(1.5) == 2], [round(2.5) == 2],
    [round(-7.5) == -8], [round(7.8) == 8]. *)
Example round_float_ties :
  round_float (Float64.literal 1 2) = Ok 0
  /\ round_float (Float64.literal 3 2) = Ok 2
  /\ round_float (Float64.literal 5 2) = Ok 2
  /\ round_float (Float64.literal (-15) 2) = Ok (-8)
  /\ round_float (Float64.literal 78 10) = Ok 8.
Proof. repeat split; vm_compute; reflexivity. Qed.

(** [float(2**1024 - 2**970)] raises; the integer below it converts to
    the largest finite number. *)
Example float_of_int_limit :
  float_of_int (2 ^ 1024 - 2 ^ 970) = Raise OverflowError
  /\ float_of_int (2 ^ 1024 - 2 ^ 970 - 1)
     = Ok (S754_finite false 9007199254740991 971).
Proof. split; vm_compute; reflexivity. Qed.

Lemma round_half_even_nonneg (m : positive) (e : Z) :
  0 <= Float64.round_half_even m e.
Proof.
  destruct e as [|p|p]; cbn [Float64.round_half_even].
  - lia.
  - assert (0 < 2 ^ Zpos p) by (apply Z.pow_pos_nonneg; lia). nia.
  - assert (Hd : 0 < 2 ^ Zpos p) by (apply Z.pow_pos_nonneg; lia).
    assert (Hq : 0 <= Zpos m / 2 ^ Zpos p) by (apply Z.div_pos; lia).
    cbv zeta.
    destruct (2 * (Zpos m mod 2 ^ Zpos p) ?= 2 ^ Zpos p);
      [destruct (Z.even _)| |]; lia.
Qed.

(** The rounded integer is a nearest one: twice the distance to
    [m * 2^e] is at most one. For [e < 0] this reads
    [|2 * m - 2 * r * 2^(-e)| <= 2^(-e)]. *)
Lemma round_half_even_nearest (m p : positive) :
  let r := Float64.round_half_even m (Zneg p) in
  Z.abs (2 * Zpos m - 2 * r * 2 ^ Zpos p) <= 2 ^ Zpos p.
Proof.
  cbn [Float64.round_half_even]. cbv zeta.
  assert (Hd : 0 < 2 ^ Zpos p) by (apply Z.pow_pos_nonneg; lia).
  pose proof (Z.div_mod (Zpos m) (2 ^ Zpos p) ltac:(lia)) as Hdm.
  pose proof (Z.mod_pos_bound (Zpos m) (2 ^ Zpos p) Hd) as Hr.
  set (d := 2 ^ Zpos p) in *.
  set (q := Zpos m / d) in *.
  set (r := Zpos m mod d) in *.
  destruct (Z.compare_spec (2 * r) d) as [He|Hl|Hg].
  - destruct (Z.even q); nia.
  - nia.
  - nia.
Qed.

Lemma round_half_even_integral (m : positive) (e : Z) :
  0 <= e -> Float64.round_half_even m e = Zpos m * 2 ^ e.
Proof.
  destruct e as [|p|p]; cbn [Float64.round_half_even]; intros; lia.
Qed.

(** ** Clamping *)

Lemma clamp_quality_range (q : Z) : 0 <= clamp_quality q <= 5.
Proof. unfold clamp_quality. lia. Qed.

Lemma clamp_quality_idem (q : Z) :
  clamp_quality (clamp_quality q) = clamp_quality q.
Proof. unfold clamp_quality. lia. Qed.

Lemma clamp_quality_id (q : Z) : 0 <= q <= 5 -> clamp_quality q = q.
Proof. unfold clamp_quality. lia. Qed.

Lemma clamp_quality_lapse (q : Z) :
  (clamp_quality q <? 3) = (q <? 3).
Proof.
  unfold clamp_quality.
  destruct (Z.ltb_spec q 3), (Z.ltb_spec (Z.max 0 (Z.min 5 q)) 3);
    trivial; lia.
Qed.

Lemma schedule_lapse (q : Z) (ease : float) (reps iv : Z) :
  q < 3 ->
  schedule q ease reps iv
  = Ok {| st_ease := ease; st_reps := 0; st_interval := 1 |}.
Proof.
  intros Hq. unfold schedule. rewrite clamp_quality_lapse.
  destruct (Z.ltb_spec q 3); [reflexivity | lia].
Qed.

(** ** The ease-factor step on a clamped quality *)

Lemma small_cases (n : Z) :
  0 <= n <= 5 -> n = 0 \/ n = 1 \/ n = 2 \/ n = 3 \/ n = 4 \/ n = 5.
Proof. lia. Qed.

Lemma float_of_int_small (n : Z) :
  0 <= n <= 5 -> float_of_int n = Ok (Float64.of_int n).
Proof.
  intros H.
  destruct (small_cases n H) as [->|[->|[->|[->|[->| ->]]]]]; reflexivity.
Qed.

Lemma ease_step_clamped (ease : float) (q : Z) :
  0 <= q <= 5 ->
  ease_step ease q = Ok (Float64.add ease (ease_delta q)).
Proof.
  intros H. unfold ease_step, int_mul_float.
  rewrite (float_of_int_small (5 - q)) by lia. reflexivity.
Qed.

(** ** Order and sign of binary64 values *)

Lemma ltb_leb (a b : float) :
  Float64.ltb a b = true -> Float64.leb a b = true.
Proof.
  unfold Float64.ltb, Float64.leb, SFltb, SFleb.
  destruct (SFcompare a b) as [[| |]|]; congruence.
Qed.

Lemma float_max_floor (a b : float) :
  Float64.leb a a = true -> Float64.leb a (float_max a b) = true.
Proof.
  intros Ha. unfold float_max.
  destruct (Float64.ltb a b) eqn:Hlt; [apply ltb_leb; exact Hlt | exact Ha].
Qed.

Lemma binary_round_aux_not_negative (mx ex : Z) (lx : location) :
  not_negative (binary_round_aux Float64.prec Float64.emax false mx ex lx).
Proof.
  unfold binary_round_aux.
  destruct (shr_fexp _ _ mx ex lx) as [mrs' e'].
  destruct (shr_fexp _ _ _ e' loc_Exact) as [mrs'' e''].
  destruct (shr_m mrs'') as [|m|m]; cbn; trivial.
  destruct (e'' <=? _); reflexivity.
Qed.

Lemma of_int_not_negative (n : Z) :
  0 <= n -> not_negative (Float64.of_int n).
Proof.
  intros Hn. destruct n as [|m|m]; [exact I| |lia].
  unfold Float64.of_int, binary_normalize, binary_round.
  destruct (shl_align _ _ _) as [mz ez].
  apply binary_round_aux_not_negative.
Qed.

Lemma leb_zero_not_negative (x : float) :
  Float64.leb (Float64.of_int 0) x = true -> not_negative x.
Proof.
  destruct x as [s|[|]| |[|] m e]; cbn; trivial; discriminate.
Qed.

Lemma mul_not_negative (x y : float) :
  not_negative x -> not_negative y -> not_negative (Float64.mul x y).
Proof.
  destruct x as [sx|sx| |sx mx ex], y as [sy|sy| |sy my ey]; cbn;
    intros Hx Hy; subst; trivial.
  apply binary_round_aux_not_negative.
Qed.

Lemma round_float_not_negative (x : float) (r : Z) :
  not_negative x -> round_float x = Ok r -> 0 <= r.
Proof.
  destruct x as [s|s| |s m e]; cbn; intros Hx Hr; try discriminate.
  - injection Hr as <-. lia.
  - subst s. injection Hr as <-. cbn. apply round_half_even_nonneg.
Qed.

Lemma grow_interval_positive (iv : Z) (ease : float) (r : Z) :
  0 <= iv -> not_negative ease ->
  grow_interval iv ease = Ok r -> 1 <= r.
Proof.
  intros Hiv Hease. unfold grow_interval, int_mul_float, float_of_int.
  pose proof (of_int_not_negative iv Hiv) as Hf.
  destruct (Float64.of_int iv) as [s|s| |s m e] eqn:Ef; cbn [bind];
    try discriminate;
    (destruct (round_float _) as [k|] eqn:Hk; cbn [bind]; [|discriminate]);
    apply round_float_not_negative in Hk;
      try (apply mul_not_negative; assumption);
    intros [= <-]; unfold or_1; destruct (Z.eqb_spec k 0); lia.
Qed.

(** ** [schedule] case by case *)

Lemma schedule_success (q : Z) (ease : float) (reps iv : Z) :
  3 <= q ->
  schedule q ease reps iv =
  (interval' <-
     (if reps =? 0 then Ok 1
      else if reps =? 1 then Ok 6
      else grow_interval iv ease) ;;
   Ok {| st_ease :=
           float_max Float64.c_1_3
             (Float64.add ease (ease_delta (clamp_quality q)));
         st_reps := reps + 1;
         st_interval := interval' |}).
Proof.
  intros Hq. unfold schedule. rewrite clamp_quality_lapse.
  destruct (Z.ltb_spec q 3); [lia|].
  rewrite ease_step_clamped by apply clamp_quality_range.
  reflexivity.
Qed.

Lemma schedule_cases (q : Z) (ease : float) (reps iv : Z) (st : schedule_state) :
  schedule q ease reps iv = Ok st ->
  (q < 3 /\ st = {| st_ease := ease; st_reps := 0; st_interval := 1 |})
  \/ (3 <= q /\
      st_ease st
      = float_max Float64.c_1_3 (Float64.add ease (ease_delta (clamp_quality q)))
      /\ st_reps st = reps + 1
      /\ ((reps = 0 /\ st_interval st = 1)
          \/ (reps = 1 /\ st_interval st = 6)
          \/ (reps <> 0 /\ reps <> 1
              /\ grow_interval iv ease = Ok (st_interval st)))).
Proof.
  destruct (Z.lt_ge_cases q 3) as [Hq|Hq].
  - rewrite schedule_lapse by exact Hq. intros [= <-]. left. auto.
  - rewrite schedule_success by exact Hq. intros H. right.
    split; [exact Hq|]. revert H.
    destruct (Z.eqb_spec reps 0) as [E0|E0];
      [|destruct (Z.eqb_spec reps 1) as [E1|E1]]; cbn [bind].
    + intros [= <-]. cbn. auto.
    + intros [= <-]. cbn. auto 6.
    + destruct (grow_interval iv ease) as [r|] eqn:Hg; cbn [bind];
        [|discriminate].
      intros [= <-]. cbn. auto 8.
Qed.

(** [schedule] raises in one place only: the product and rounding of
    the third and later successes. *)
Lemma schedule_returns (q : Z) (ease : float) (reps iv : Z) :
  q < 3 \/ reps = 0 \/ reps = 1 ->
  exists st, schedule q ease reps iv = Ok st.
Proof.
  intros H. destruct (Z.lt_ge_cases q 3) as [Hq|Hq].
  - eexists. apply schedule_lapse. exact Hq.
  - rewrite schedule_success by exact Hq.
    destruct H as [H|[-> | ->]]; [lia| |]; eexists; reflexivity.
Qed.

Lemma schedule_raises (q : Z) (ease : float) (reps iv : Z) (e : exn) :
  schedule q ease reps iv = Raise e <->
  3 <= q /\ reps <> 0 /\ reps <> 1 /\ grow_interval iv ease = Raise e.
Proof.
  destruct (Z.lt_ge_cases q 3) as [Hq|Hq].
  - rewrite schedule_lapse by exact Hq. split; [discriminate|lia].
  - rewrite schedule_success by exact Hq.
    destruct (Z.eqb_spec reps 0) as [E0|E0];
      [|destruct (Z.eqb_spec reps 1) as [E1|E1]]; cbn [bind].
    + split; [discriminate|]. intros (_ & H & _). contradiction.
    + split; [discriminate|]. intros (_ & _ & H & _). contradiction.
    + destruct (grow_interval iv ease) as [r|e'] eqn:Hg; cbn [bind].
      * split; [discriminate|]. intros (_ & _ & _ & H). discriminate H.
      * split; [intros [= <-]; auto|]. intros (_ & _ & _ & [= <-]).
        reflexivity.
Qed.

(** ** Identifiers and collections *)

Lemma ObjectId_eqb_spec (a b : ObjectId) : reflect (a = b) (ObjectId_eqb a b).
Proof.
  destruct a as [x], b as [y]. unfold ObjectId_eqb. cbn.
  destruct (String.eqb_spec x y) as [->|Hne]; constructor; congruence.
Qed.

Section CollectionFacts.

Context {A : Type}.
Implicit Types (coll : list (document A)) (oid : ObjectId).

Lemma count_documents_zero oid coll :
  count_documents oid coll = 0 <-> (forall d, In d coll -> _id d <> oid).
Proof.
  unfold count_documents. induction coll as [|d rest IH]; cbn.
  - split; [intros _ d []|reflexivity].
  - destruct (ObjectId_eqb_spec (_id d) oid) as [E|E]; cbn [List.length].
    + split; [lia|]. intros H. exfalso. apply (H d); auto.
    + rewrite IH. split.
      * intros H d' [<-|Hin]; auto.
      * intros H d' Hin. apply H. auto.
Qed.


(** [update_one] rewrites the document [find_one] returns, in place. *)
Lemma update_one_split oid (u : A -> A) coll d :
  find_one oid coll = Some d ->
  exists before after,
    coll = before ++ d :: after /\
    update_one oid u coll
    = before ++ {| _id := _id d; fields := u (fields d) |} :: after.
Proof.
  unfold find_one. induction coll as [|x rest IH]; cbn; [discriminate|].
  destruct (ObjectId_eqb (_id x) oid).
  - intros [= <-]. exists [], rest. split; reflexivity.
  - intros H. destruct (IH H) as (before & after & E1 & E2).
    exists (x :: before), after. cbn. rewrite <- E1, E2. split; reflexivity.
Qed.

Lemma update_one_absent oid (u : A -> A) coll :
  find_one oid coll = None -> update_one oid u coll = coll.
Proof.
  unfold find_one. induction coll as [|x rest IH]; cbn; [reflexivity|].
  destruct (ObjectId_eqb (_id x) oid); [discriminate|].
  intros H. rewrite (IH H). reflexivity.
Qed.

Lemma find_one_update_one oid (u : A -> A) coll d :
  find_one oid coll = Some d ->
  find_one oid (update_one oid u coll)
  = Some {| _id := _id d; fields := u (fields d) |}.
Proof.
  unfold find_one. induction coll as [|x rest IH]; cbn; [discriminate|].
  destruct (ObjectId_eqb (_id x) oid) eqn:E.
  - intros [= <-]. cbn. rewrite E. reflexivity.
  - intros H. cbn. rewrite E. apply IH, H.
Qed.

(** Position by position, [update_one] keeps every [_id] and changes
    the fields of a document by [u] or not at all. *)
Lemma update_one_pointwise oid (u : A -> A) coll :
  Forall2 (fun d d' => _id d' = _id d
                       /\ (fields d' = fields d \/ fields d' = u (fields d)))
          coll (update_one oid u coll).
Proof.
  induction coll as [|x rest IH]; cbn; [constructor|].
  destruct (ObjectId_eqb (_id x) oid).
  - constructor; [cbn; auto|].
    clear IH. induction rest; constructor; auto.
  - constructor; auto.
Qed.

End CollectionFacts.

(** ** [review_card] in terms of [schedule] *)

Lemma review_card_raises (payload : CardReview) (now_next now_last : datetime)
    (db : Db) (e : exn) :
  fst (review_card payload now_next now_last db) = Raise e ->
  snd (review_card payload now_next now_last db) = db.
Proof.
  unfold review_card.
  destruct (ObjectId_of_string _) as [oid|]; [|reflexivity].
  destruct (find_one oid _) as [doc|]; [|reflexivity].
  destruct (bind _ _) as [[st nr]|]; [discriminate|reflexivity].
Qed.

Lemma review_card_returns (payload : CardReview) (now_next now_last : datetime)
    (db db' : Db) (resp : review_response) :
  review_card payload now_next now_last db = (Ok resp, db') ->
  exists oid doc st,
    ObjectId_of_string (card_id payload) = Ok oid /\
    find_one oid (db_card db) = Some doc /\
    schedule (quality payload) (ease_factor (fields doc))
      (repetitions (fields doc)) (interval (fields doc)) = Ok st /\
    Z.abs (st_interval st) <= 999999999 /\
    r_next_review resp = now_next + st_interval st * microseconds_per_day /\
    datetime_min <= r_next_review resp <= datetime_max /\
    r_id resp = card_id payload /\
    r_ease_factor resp = st_ease st /\
    r_repetitions resp = st_reps st /\
    r_interval resp = st_interval st /\
    db_deck db' = db_deck db /\
    db_card db'
    = update_one oid
        (fun c => reviewed c st now_last (r_next_review resp)) (db_card db).
Proof.
  unfold review_card.
  destruct (ObjectId_of_string _) as [oid|]; [|discriminate].
  destruct (find_one oid _) as [doc|] eqn:Hfind; [|discriminate].
  destruct (schedule _ _ _ _) as [st|] eqn:Hs; cbn [bind]; [|discriminate].
  unfold timedelta_days, datetime_add.
  destruct (Z.leb_spec (Z.abs (st_interval st)) 999999999); cbn [bind];
    [|discriminate].
  destruct (Z.leb_spec datetime_min
              (now_next + st_interval st * microseconds_per_day));
    cbn [andb]; [|discriminate].
  destruct (Z.leb_spec (now_next + st_interval st * microseconds_per_day)
              datetime_max); [|discriminate].
  intros [= <- <-]. exists oid, doc, st. cbn. repeat split; trivial.
Qed.

(** After a review that returns, the reviewed card holds the returned
    schedule and the two timestamps. *)
Lemma review_card_stores (payload : CardReview) (now_next now_last : datetime)
    (db db' : Db) (resp : review_response) :
  review_card payload now_next now_last db = (Ok resp, db') ->
  exists oid doc,
    ObjectId_of_string (card_id payload) = Ok oid /\
    find_one oid (db_card db) = Some doc /\
    find_one oid (db_card db')
    = Some {| _id := _id doc;
              fields :=
                {| deck_id := deck_id (fields doc);
                   front := front (fields doc);
                   back := back (fields doc);
                   ease_factor := r_ease_factor resp;
                   interval := r_interval resp;
                   repetitions := r_repetitions resp;
                   next_review := Some (r_next_review resp);
                   last_reviewed := Some now_last |} |}.
Proof.
  intros E. apply review_card_returns in E
    as (oid & doc & st & Hoid & Hfind & _ & _ & _ & _ & _ & He & Hr & Hi
        & _ & Hc).
  exists oid, doc. split; [exact Hoid|]. split; [exact Hfind|].
  rewrite Hc, (find_one_update_one oid _ _ _ Hfind).
  unfold reviewed. rewrite He, Hr, Hi. reflexivity.
Qed.


(** ** The ease factor *)

Lemma sm2_ease_update_clamped (ease : float) (q : Z) :
  sm2_ease_update ease (clamp_quality q)
  = Ok (float_max Float64.c_1_3 (Float64.add ease (ease_delta (clamp_quality q)))).
Proof.
  unfold sm2_ease_update.
  rewrite ease_step_clamped by apply clamp_quality_range. reflexivity.
Qed.

(** C1, as stated, fails: a review with quality 0 of a card at ease
    factor 2.5 leaves the ease factor at 2.5, while the update formula
    gives 1.7000000000000002. *)
Lemma lapse_ease_update_counterexample :
  ~ lapse_applies_ease_update 0 Float64.c_2_5 0 0.
Proof.
  intros H. specialize (H ltac:(lia) _ eq_refl).
  vm_compute in H. discriminate H.
Qed.

(** C1, amended: a review with quality below 3 returns the card's prior
    ease factor unchanged; the update
    [max(1.3, ease + (0.1 - (5 - quality) * (0.08 + (5 - quality) * 0.02)))]
    is applied by the reviews with quality 3 or more, and only by them. *)
Theorem lapse_keeps_ease_factor (q : Z) (ease : float) (reps iv : Z) :
  q < 3 ->
  (exists st, schedule q ease reps iv = Ok st /\ st_ease st = ease)
  /\ (forall q' reps' iv' st,
         3 <= q' ->
         schedule q' ease reps' iv' = Ok st ->
         sm2_ease_update ease (clamp_quality q') = Ok (st_ease st)).
Proof.
  intros Hq. split.
  - eexists. split; [apply schedule_lapse; exact Hq|reflexivity].
  - intros q' reps' iv' st Hq' Hs.
    rewrite sm2_ease_update_clamped.
    destruct (schedule_cases _ _ _ _ _ Hs) as [[Hlt _]|(_ & He & _)];
      [lia|]. rewrite He. reflexivity.
Qed.

Lemma lapse_keeps_ease_factor_witness :
  0 < 3 /\
  (exists st, schedule 0 Float64.c_2_5 4 30 = Ok st
              /\ st_ease st = Float64.c_2_5).
Proof.
  split; [lia|].
  apply (lapse_keeps_ease_factor 0 Float64.c_2_5 4 30). lia.
Defined.

Lemma schedule_ease_floor (q : Z) (ease : float) (reps iv : Z)
    (st : schedule_state) :
  Float64.leb Float64.c_1_3 ease = true ->
  schedule q ease reps iv = Ok st ->
  Float64.leb Float64.c_1_3 (st_ease st) = true.
Proof.
  intros Hease Hs.
  destruct (schedule_cases _ _ _ _ _ Hs) as [[_ ->]|(_ & -> & _)].
  - exact Hease.
  - apply float_max_floor. reflexivity.
Qed.

Lemma review_card_ease_floor (payload : CardReview)
    (now_next now_last : datetime) (db : Db) :
  ease_floor_db db ->
  ease_floor_db (snd (review_card payload now_next now_last db)).
Proof.
  intros Hdb.
  destruct (review_card payload now_next now_last db) as [[resp|e] db'] eqn:E.
  - apply review_card_returns in E
      as (oid & doc & st & _ & Hfind & Hs & _ & _ & _ & _ & _ & _ & _ & _ & Hc).
    unfold ease_floor_db in *. cbn [snd]. rewrite Hc.
    destruct (update_one_split oid
                (fun c => reviewed c st now_last (r_next_review resp))
                _ _ Hfind) as (before & after & E1 & E2).
    rewrite E2. rewrite E1 in Hdb.
    apply Forall_app in Hdb as [Hb Ha].
    apply Forall_app. split; [exact Hb|].
    inversion Ha as [|? ? Hd Hrest]; subst.
    constructor; [|exact Hrest].
    cbn. unfold ease_floor. cbn.
    eapply schedule_ease_floor; [exact Hd | exact Hs].
  - pose proof (review_card_raises payload now_next now_last db e) as Hr.
    rewrite E in Hr. cbn in Hr. cbn [snd]. rewrite Hr by reflexivity.
    exact Hdb.
Qed.

(** C2: for every quality (in [[0,5]] or not) and every starting ease
    factor of at least 1.3, the ease factor a review produces is at
    least 1.3; and a store all of whose cards have an ease factor of at
    least 1.3 is such a store again after any call of [review_card]. *)
Theorem ease_factor_floor (q : Z) (ease : float) (reps iv : Z) :
  Float64.leb Float64.c_1_3 ease = true ->
  (forall st, schedule q ease reps iv = Ok st ->
              Float64.leb Float64.c_1_3 (st_ease st) = true)
  /\ (forall payload now_next now_last db,
         ease_floor_db db ->
         ease_floor_db (snd (review_card payload now_next now_last db))).
Proof.
  intros Hease. split.
  - intros st. apply schedule_ease_floor. exact Hease.
  - intros. apply review_card_ease_floor. assumption.
Qed.

Lemma ease_factor_floor_witness :
  Float64.leb Float64.c_1_3 Float64.c_1_3 = true /\
  schedule 3 Float64.c_1_3 2 6
  = Ok {| st_ease := Float64.c_1_3; st_reps := 3; st_interval := 8 |} /\
  Float64.leb Float64.c_1_3 Float64.c_1_3 = true.
Proof.
  split; [reflexivity|]. split; [vm_compute; reflexivity|].
  apply (proj1 (ease_factor_floor 3 Float64.c_1_3 2 6 eq_refl)
           {| st_ease := Float64.c_1_3; st_reps := 3; st_interval := 8 |}).
  vm_compute. reflexivity.
Defined.

(** ** Lapses, the bootstrap curve and compounding *)

(** Through the handler: the response of a lapse and the card it leaves
    in the store. *)
Lemma review_card_lapse (payload : CardReview) (now_next now_last : datetime)
    (db db' : Db) (resp : review_response) :
  quality payload < 3 ->
  review_card payload now_next now_last db = (Ok resp, db') ->
  r_repetitions resp = 0 /\ r_interval resp = 1
  /\ exists oid doc',
       ObjectId_of_string (card_id payload) = Ok oid
       /\ find_one oid (db_card db') = Some doc'
       /\ repetitions (fields doc') = 0 /\ interval (fields doc') = 1.
Proof.
  intros Hq E.
  destruct (review_card_stores _ _ _ _ _ _ E) as (oid & doc & Hoid & _ & Hst).
  apply review_card_returns in E
    as (oid' & doc0 & st & _ & _ & Hs & _ & _ & _ & _ & _ & Hr & Hi & _).
  rewrite schedule_lapse in Hs by exact Hq. injection Hs as <-.
  cbn in Hr, Hi. split; [exact Hr|]. split; [exact Hi|].
  eexists oid, _. split; [exact Hoid|]. split; [exact Hst|].
  cbn. auto.
Qed.

(** C3: a review with quality below 3 returns from the scheduling
    computation, whatever the card's prior ease factor, repetitions and
    interval, with [repetitions == 0] and [interval == 1]; and when
    [review_card] returns on such a quality, its response and the stored
    card carry [repetitions == 0] and [interval == 1]. *)
Theorem lapse_resets_progress (q : Z) (ease : float) (reps iv : Z) :
  q < 3 ->
  (exists st, schedule q ease reps iv = Ok st
              /\ st_reps st = 0 /\ st_interval st = 1)
  /\ (forall cid now_next now_last db db' resp,
         review_card {| card_id := cid; quality := q |} now_next now_last db
         = (Ok resp, db') ->
         r_repetitions resp = 0 /\ r_interval resp = 1
         /\ exists oid doc',
              ObjectId_of_string cid = Ok oid
              /\ find_one oid (db_card db') = Some doc'
              /\ repetitions (fields doc') = 0
              /\ interval (fields doc') = 1).
Proof.
  intros Hq. split.
  - eexists. split; [apply schedule_lapse; exact Hq|].
    split; reflexivity.
  - intros cid now_next now_last db db' resp E.
    apply (review_card_lapse {| card_id := cid; quality := q |} _ _ _ _ _ Hq E).
Qed.

Lemma lapse_resets_progress_witness :
  2 < 3 /\
  (exists st, schedule 2 Float64.c_2_6 7 120 = Ok st
              /\ st_reps st = 0 /\ st_interval st = 1) /\
  (exists resp db',
      review_card {| card_id := sample_card_id; quality := 2 |}
        sample_now sample_now (sample_db_with Float64.c_2_6 7 120)
      = (Ok resp, db')
      /\ r_repetitions resp = 0 /\ r_interval resp = 1).
Proof.
  split; [lia|].
  destruct (lapse_resets_progress 2 Float64.c_2_6 7 120 ltac:(lia))
    as [Hs Hh].
  split; [exact Hs|].
  exists {| r_id := sample_card_id; r_ease_factor := Float64.c_2_6;
            r_repetitions := 0; r_interval := 1;
            r_next_review := sample_now + microseconds_per_day |}.
  exists (snd (review_card {| card_id := sample_card_id; quality := 2 |}
                 sample_now sample_now (sample_db_with Float64.c_2_6 7 120))).
  assert (E : review_card {| card_id := sample_card_id; quality := 2 |}
                sample_now sample_now (sample_db_with Float64.c_2_6 7 120)
              = (Ok {| r_id := sample_card_id; r_ease_factor := Float64.c_2_6;
                       r_repetitions := 0; r_interval := 1;
                       r_next_review := sample_now + microseconds_per_day |},
                 snd (review_card {| card_id := sample_card_id; quality := 2 |}
                        sample_now sample_now
                        (sample_db_with Float64.c_2_6 7 120))))
    by (vm_compute; reflexivity).
  split; [exact E|].
  destruct (Hh _ _ _ _ _ _ E) as (H1 & H2 & _). split; assumption.
Defined.

Lemma schedule_first_success (q : Z) (ease : float) (iv : Z) :
  3 <= q ->
  schedule q ease 0 iv
  = Ok {| st_ease := float_max Float64.c_1_3
                       (Float64.add ease (ease_delta (clamp_quality q)));
          st_reps := 1; st_interval := 1 |}.
Proof. intros Hq. rewrite schedule_success by exact Hq. reflexivity. Qed.

Lemma schedule_second_success (q : Z) (ease : float) (iv : Z) :
  3 <= q ->
  schedule q ease 1 iv
  = Ok {| st_ease := float_max Float64.c_1_3
                       (Float64.add ease (ease_delta (clamp_quality q)));
          st_reps := 2; st_interval := 6 |}.
Proof. intros Hq. rewrite schedule_success by exact Hq. reflexivity. Qed.

(** C4: from [repetitions == 0] a review with quality 3 or more gives
    [interval == 1] and [repetitions == 1]; the next review with quality
    3 or more, as any such review from [repetitions == 1], gives
    [interval == 6] and [repetitions == 2]; and a quality 5 review of a
    fresh card (ease factor 2.5, no repetitions, interval 0) gives ease
    factor 2.6, interval 1 and one repetition. *)
Theorem bootstrap_curve (q1 q2 : Z) (ease : float) (iv : Z) :
  3 <= q1 -> 3 <= q2 ->
  (exists st1 st2,
      schedule q1 ease 0 iv = Ok st1
      /\ st_interval st1 = 1 /\ st_reps st1 = 1
      /\ schedule q2 (st_ease st1) (st_reps st1) (st_interval st1) = Ok st2
      /\ st_interval st2 = 6 /\ st_reps st2 = 2)
  /\ (forall ease' iv',
         exists st, schedule q2 ease' 1 iv' = Ok st
                    /\ st_interval st = 6 /\ st_reps st = 2)
  /\ schedule 5 Float64.c_2_5 0 0
     = Ok {| st_ease := Float64.c_2_6; st_reps := 1; st_interval := 1 |}.
Proof.
  intros H1 H2. split; [|split].
  - do 2 eexists. split; [apply schedule_first_success; exact H1|].
    cbn [st_interval st_reps st_ease].
    split; [reflexivity|]. split; [reflexivity|].
    split; [apply schedule_second_success; exact H2|].
    split; reflexivity.
  - intros ease' iv'. eexists.
    split; [apply schedule_second_success; exact H2|]. split; reflexivity.
  - vm_compute. reflexivity.
Qed.

Lemma bootstrap_curve_witness :
  3 <= 3 /\ 3 <= 4 /\
  exists st1 st2,
    schedule 3 Float64.c_2_5 0 0 = Ok st1
    /\ st_interval st1 = 1 /\ st_reps st1 = 1
    /\ schedule 4 (st_ease st1) (st_reps st1) (st_interval st1) = Ok st2
    /\ st_interval st2 = 6 /\ st_reps st2 = 2.
Proof.
  split; [lia|]. split; [lia|].
  apply (bootstrap_curve 3 4 Float64.c_2_5 0); lia.
Defined.

(** C5: a review with quality 3 or more of a card with 2 or more prior
    repetitions returns exactly when [interval * ease_factor] can be
    computed and rounded; its new interval is then
    [round(interval * ease_factor)] on the prior ease factor, 1 when that
    is 0, and its repetitions are one more than before. From
    [repetitions = 2], [interval = 6] and ease factor 2.5 a quality 4
    review gives interval 15 and 3 repetitions. *)
Theorem compounding_interval (q : Z) (ease : float) (reps iv : Z) :
  3 <= q -> 2 <= reps ->
  (forall p r,
      int_mul_float iv ease = Ok p -> round_float p = Ok r ->
      exists st, schedule q ease reps iv = Ok st
                 /\ st_interval st = (if r =? 0 then 1 else r)
                 /\ st_reps st = reps + 1)
  /\ (forall st,
         schedule q ease reps iv = Ok st ->
         exists p r,
           int_mul_float iv ease = Ok p /\ round_float p = Ok r
           /\ st_interval st = (if r =? 0 then 1 else r)
           /\ st_reps st = reps + 1)
  /\ schedule 4 Float64.c_2_5 2 6
     = Ok {| st_ease := Float64.c_2_5; st_reps := 3; st_interval := 15 |}.
Proof.
  intros Hq Hreps.
  assert (Hs : schedule q ease reps iv =
               (interval' <- grow_interval iv ease ;;
                Ok {| st_ease :=
                        float_max Float64.c_1_3
                          (Float64.add ease (ease_delta (clamp_quality q)));
                      st_reps := reps + 1; st_interval := interval' |})).
  { rewrite schedule_success by exact Hq.
    destruct (Z.eqb_spec reps 0); [lia|].
    destruct (Z.eqb_spec reps 1); [lia|]. reflexivity. }
  split; [|split].
  - intros p r Hp Hr. rewrite Hs. unfold grow_interval.
    rewrite Hp. cbn [bind]. rewrite Hr. cbn [bind].
    eexists. split; [reflexivity|]. split; reflexivity.
  - intros st. rewrite Hs. unfold grow_interval.
    destruct (int_mul_float iv ease) as [p|]; cbn [bind]; [|discriminate].
    destruct (round_float p) as [r|] eqn:Hr; cbn [bind]; [|discriminate].
    intros [= <-]. exists p, r. cbn. repeat split; trivial.
  - vm_compute. reflexivity.
Qed.

Lemma compounding_interval_witness :
  3 <= 4 /\ 2 <= 2 /\
  exists st, schedule 4 Float64.c_2_5 2 6 = Ok st
             /\ st_interval st = (if 15 =? 0 then 1 else 15)
             /\ st_reps st = 2 + 1.
Proof.
  split; [lia|]. split; [lia|].
  apply (proj1 (compounding_interval 4 Float64.c_2_5 2 6 ltac:(lia) ltac:(lia))
           (Float64.of_int 15) 15); vm_compute; reflexivity.
Defined.

(** ** Clamping the quality *)

Lemma schedule_clamp (q : Z) (ease : float) (reps iv : Z) :
  schedule q ease reps iv = schedule (clamp_quality q) ease reps iv.
Proof. unfold schedule. rewrite clamp_quality_idem. reflexivity. Qed.

Lemma review_card_clamp (cid : string) (q : Z) (now_next now_last : datetime)
    (db : Db) :
  review_card {| card_id := cid; quality := q |} now_next now_last db
  = review_card {| card_id := cid; quality := clamp_quality q |}
      now_next now_last db.
Proof.
  unfold review_card. cbn [card_id quality].
  destruct (ObjectId_of_string cid) as [oid|]; [|reflexivity].
  destruct (find_one oid (db_card db)) as [doc|]; [|reflexivity].
  rewrite <- schedule_clamp. reflexivity.
Qed.

(** C6: a review with an integer quality outside [[0,5]] returns the
    same response, raises the same exception and leaves the same store
    as the review with the nearest boundary: 5 for a quality above 5,
    0 for a quality below 0. *)
Theorem quality_clamping (cid : string) (q : Z) (now_next now_last : datetime)
    (db : Db) :
  (5 < q ->
   review_card {| card_id := cid; quality := q |} now_next now_last db
   = review_card {| card_id := cid; quality := 5 |} now_next now_last db)
  /\ (q < 0 ->
      review_card {| card_id := cid; quality := q |} now_next now_last db
      = review_card {| card_id := cid; quality := 0 |} now_next now_last db)
  /\ (forall ease reps iv,
         schedule q ease reps iv = schedule (clamp_quality q) ease reps iv).
Proof.
  split; [|split].
  - intros Hq. rewrite review_card_clamp.
    replace (clamp_quality q) with 5 by (unfold clamp_quality; lia).
    reflexivity.
  - intros Hq. rewrite review_card_clamp.
    replace (clamp_quality q) with 0 by (unfold clamp_quality; lia).
    reflexivity.
  - intros. apply schedule_clamp.
Qed.

Lemma quality_clamping_witness :
  (5 < 7 /\
   review_card {| card_id := sample_card_id; quality := 7 |}
     sample_now sample_now (sample_db_with Float64.c_2_5 2 6)
   = review_card {| card_id := sample_card_id; quality := 5 |}
       sample_now sample_now (sample_db_with Float64.c_2_5 2 6))
  /\ (-2 < 0 /\
      review_card {| card_id := sample_card_id; quality := -2 |}
        sample_now sample_now (sample_db_with Float64.c_2_5 2 6)
      = review_card {| card_id := sample_card_id; quality := 0 |}
          sample_now sample_now (sample_db_with Float64.c_2_5 2 6)).
Proof.
  split; (split; [lia|]).
  - apply (proj1 (quality_clamping sample_card_id 7 sample_now sample_now
                    (sample_db_with Float64.c_2_5 2 6))). lia.
  - apply (proj1 (proj2 (quality_clamping sample_card_id (-2) sample_now
                           sample_now (sample_db_with Float64.c_2_5 2 6)))).
    lia.
Defined.

(** ** Positive intervals *)

(** C7, as stated, fails: a card with [repetitions = 2], ease factor
    2.5 and the interval -6, which the [Card] schema accepts, is given
    the interval [round(-6 * 2.5) = -15] by a quality 4 review. *)
Lemma negative_interval_counterexample :
  ~ interval_positive_after_review 4 Float64.c_2_5 2 (-6).
Proof.
  intros H.
  specialize (H {| st_ease := Float64.c_2_5; st_reps := 3;
                   st_interval := -15 |}).
  cbn [st_interval] in H. assert (1 <= -15); [|lia].
  apply H. vm_compute. reflexivity.
Qed.

(** The same run through the handlers: [create_card] stores the card as
    it is sent, and [review_card] answers with the interval -15. *)
Example negative_interval_through_handlers :
  fst (create_card (sample_card Float64.c_2_5 2 (-6)) sample_card_oid sample_db)
  = Ok sample_card_id
  /\ fst (review_card {| card_id := sample_card_id; quality := 4 |}
            sample_now sample_now (sample_db_with Float64.c_2_5 2 (-6)))
     = Ok {| r_id := sample_card_id; r_ease_factor := Float64.c_2_5;
             r_repetitions := 3; r_interval := -15;
             r_next_review := sample_now - 15 * microseconds_per_day |}.
Proof. split; vm_compute; reflexivity. Qed.

Lemma schedule_interval_positive (q : Z) (ease : float) (reps iv : Z)
    (st : schedule_state) :
  0 <= iv ->
  Float64.leb (Float64.of_int 0) ease = true ->
  schedule q ease reps iv = Ok st ->
  1 <= st_interval st.
Proof.
  intros Hiv Hease Hs.
  destruct (schedule_cases _ _ _ _ _ Hs)
    as [[_ ->]|(_ & _ & _ & [[_ ->]|[[_ ->]|(_ & _ & Hg)]])];
    cbn [st_interval]; try lia.
  eapply grow_interval_positive; [exact Hiv| |exact Hg].
  apply leb_zero_not_negative. exact Hease.
Qed.

(** C7, amended: for every integer quality and every prior state whose
    interval is at least 0 and whose ease factor is at least 0, the
    interval a review returns is at least 1, in the scheduling
    computation and in the response of [review_card] on a card with
    that prior state. *)
Theorem interval_positive (q : Z) (ease : float) (reps iv : Z) :
  0 <= iv ->
  Float64.leb (Float64.of_int 0) ease = true ->
  (forall st, schedule q ease reps iv = Ok st -> 1 <= st_interval st)
  /\ (forall cid now_next now_last db db' resp oid doc,
         ObjectId_of_string cid = Ok oid ->
         find_one oid (db_card db) = Some doc ->
         ease_factor (fields doc) = ease ->
         interval (fields doc) = iv ->
         review_card {| card_id := cid; quality := q |} now_next now_last db
         = (Ok resp, db') ->
         1 <= r_interval resp).
Proof.
  intros Hiv Hease. split.
  - intros st. apply schedule_interval_positive; assumption.
  - intros cid now_next now_last db db' resp oid doc Hoid Hfind He Hi E.
    apply review_card_returns in E
      as (oid' & doc' & st & Hoid' & Hfind' & Hs & _ & _ & _ & _ & _ & _
          & Hri & _).
    cbn [card_id quality] in *.
    rewrite Hoid in Hoid'. injection Hoid' as <-.
    rewrite Hfind in Hfind'. injection Hfind' as <-.
    rewrite He, Hi in Hs. rewrite Hri.
    eapply schedule_interval_positive; eassumption.
Qed.

Lemma interval_positive_witness :
  0 <= 0 /\
  Float64.leb (Float64.of_int 0) Float64.c_1_3 = true /\
  schedule 3 Float64.c_1_3 2 0
  = Ok {| st_ease := Float64.c_1_3; st_reps := 3; st_interval := 1 |} /\
  1 <= 1.
Proof.
  split; [lia|]. split; [reflexivity|]. split; [vm_compute; reflexivity|].
  apply (proj1 (interval_positive 3 Float64.c_1_3 2 0 ltac:(lia) eq_refl)
           {| st_ease := Float64.c_1_3; st_reps := 3; st_interval := 1 |}).
  vm_compute. reflexivity.
Defined.

(** ** Due cards *)

Lemma collect_items_spec (due_only : bool) (now : datetime)
    (items : list (document Card)) (acc : list card_item) :
  collect_items due_only now items acc
  = acc ++ map to_item
             (filter (fun d => negb due_only || is_due now (fields d)) items).
Proof.
  revert acc. induction items as [|it rest IH]; intros acc; cbn.
  - rewrite app_nil_r. reflexivity.
  - destruct due_only; cbn.
    + destruct (is_due now (fields it)); rewrite IH; [|reflexivity].
      rewrite <- app_assoc. reflexivity.
    + rewrite IH, <- app_assoc. reflexivity.
Qed.

Lemma to_item_injective (d d' : document Card) :
  to_item d = to_item d' -> d = d'.
Proof.
  destruct d as [[x] c], d' as [[x'] c']. unfold to_item. cbn.
  intros [= -> ->]. reflexivity.
Qed.

Lemma is_due_spec (now : datetime) (c : Card) :
  is_due now c = true
  <-> next_review c = None \/ exists t, next_review c = Some t /\ t <= now.
Proof.
  unfold is_due. destruct (next_review c) as [t|].
  - rewrite Z.leb_le. split.
    + intros H. right. exists t. auto.
    + intros [H|(t' & [= <-] & H)]; [discriminate|exact H].
  - split; auto.
Qed.

(** C8: with [due_only] set, the response holds exactly the items of
    the retrieved cards whose [next_review] is absent or not after the
    current time, in the order of the store; a retrieved card with
    [next_review] after the current time is not in it. *)
Theorem due_filtering (deck_id_param : option string) (now : datetime)
    (db : Db) :
  let retrieved := get_documents_card (deck_query deck_id_param) db in
  let response := list_cards deck_id_param true now db in
  (forall x,
      In x response <->
      exists d, In d retrieved /\ x = to_item d
                /\ (next_review (fields d) = None
                    \/ exists t, next_review (fields d) = Some t /\ t <= now))
  /\ (forall d t,
         In d retrieved -> next_review (fields d) = Some t -> now < t ->
         ~ In (to_item d) response)
  /\ response
     = map to_item (filter (fun d => is_due now (fields d)) retrieved).
Proof.
  cbv zeta.
  assert (E : list_cards deck_id_param true now db
              = map to_item
                  (filter (fun d => is_due now (fields d))
                     (get_documents_card (deck_query deck_id_param) db))).
  { unfold list_cards. rewrite collect_items_spec. reflexivity. }
  rewrite E. split; [|split; [|reflexivity]].
  - intros x. rewrite in_map_iff. split.
    + intros (d & <- & Hin). apply filter_In in Hin as [Hin Hdue].
      exists d. split; [exact Hin|]. split; [reflexivity|].
      apply is_due_spec. exact Hdue.
    + intros (d & Hin & -> & Hdue). exists d. split; [reflexivity|].
      apply filter_In. split; [exact Hin|]. apply is_due_spec. exact Hdue.
  - intros d t Hin Hnr Hlt Hmem. apply in_map_iff in Hmem as (d' & E' & Hin').
    apply to_item_injective in E'. subst d'.
    apply filter_In in Hin' as [_ Hdue].
    unfold is_due in Hdue. rewrite Hnr in Hdue.
    apply Z.leb_le in Hdue. lia.
Qed.

Lemma due_filtering_witness :
  list_cards None true sample_now sample_due_db
  = [ to_item (sample_scheduled "64b7f0c2a1e4d5f6a7b8c9d1" None);
      to_item (sample_scheduled "64b7f0c2a1e4d5f6a7b8c9d2"
                 (Some (sample_now - microseconds_per_day))) ].
Proof.
  rewrite (proj2 (proj2 (due_filtering None sample_now sample_due_db))).
  vm_compute. reflexivity.
Defined.

(** ** Card creation *)

(** C9, as stated, fails: the [deck_id] "abc" resolves to no deck, and
    the request ends in [InvalidId], raised by [ObjectId], not in a 404. *)
Lemma malformed_deck_id_counterexample :
  ~ missing_deck_is_404 malformed_card sample_card_oid sample_db.
Proof.
  intros H.
  assert (Hno : ~ resolves_to_deck (deck_id malformed_card) sample_db).
  { intros (oid & d & Hoid & _). vm_compute in Hoid. discriminate Hoid. }
  destruct (H Hno) as [(detail & Hd) _].
  vm_compute in Hd. discriminate Hd.
Qed.

(** A [deck_id] that [ObjectId] rejects ends the request in
    [InvalidId], before the store is consulted. *)
Lemma create_card_malformed_deck_id (card : Card) (new_id : ObjectId)
    (db : Db) (e : exn) :
  ObjectId_of_string (deck_id card) = Raise e ->
  e = InvalidId /\ create_card card new_id db = (Raise InvalidId, db).
Proof.
  intros Hoid. unfold create_card. rewrite Hoid.
  unfold ObjectId_of_string in Hoid.
  destruct (_ && _); [discriminate|]. injection Hoid as <-. auto.
Qed.

(** C9, amended: a card-creation request whose [deck_id] resolves to no
    existing deck fails and writes nothing, the store being the same
    after the error; when [deck_id] is a well-formed identifier (24
    hexadecimal digits) the failure is the 404 "Deck not found". *)
Theorem create_card_missing_deck (card : Card) (new_id : ObjectId) (db : Db) :
  ~ resolves_to_deck (deck_id card) db ->
  snd (create_card card new_id db) = db
  /\ (exists e, fst (create_card card new_id db) = Raise e)
  /\ (forall oid,
         ObjectId_of_string (deck_id card) = Ok oid ->
         fst (create_card card new_id db)
         = Raise (HTTPException 404 "Deck not found")).
Proof.
  intros Hno.
  destruct (ObjectId_of_string (deck_id card)) as [oid|e] eqn:Hoid.
  - assert (Hc : count_documents oid (db_deck db) = 0).
    { apply count_documents_zero. intros d Hin Hid.
      apply Hno. exists oid, d. auto. }
    unfold create_card. rewrite Hoid, Hc. cbn.
    split; [reflexivity|]. split; [eexists; reflexivity|].
    intros oid' _. reflexivity.
  - destruct (create_card_malformed_deck_id card new_id db e Hoid) as [_ ->].
    cbn. split; [reflexivity|]. split; [eexists; reflexivity|].
    intros oid [=].
Qed.

Lemma create_card_missing_deck_witness :
  ~ resolves_to_deck (deck_id (sample_card Float64.c_2_5 0 0))
      {| db_deck := []; db_card := [] |}
  /\ create_card (sample_card Float64.c_2_5 0 0) sample_card_oid
       {| db_deck := []; db_card := [] |}
     = (Raise (HTTPException 404 "Deck not found"),
        {| db_deck := []; db_card := [] |}).
Proof.
  assert (Hno : ~ resolves_to_deck (deck_id (sample_card Float64.c_2_5 0 0))
                    {| db_deck := []; db_card := [] |}).
  { intros (oid & d & _ & [] & _). }
  split; [exact Hno|].
  destruct (create_card_missing_deck (sample_card Float64.c_2_5 0 0)
              sample_card_oid {| db_deck := []; db_card := [] |} Hno)
    as (Hdb & _ & H404).
  rewrite (surjective_pairing (create_card _ _ _)).
  rewrite Hdb, (H404 sample_deck_oid eq_refl). reflexivity.
Defined.


(** ** The frame of a review *)

Lemma same_content_refl (l : list (document Card)) : Forall2 same_content l l.
Proof. induction l; constructor; unfold same_content; auto. Qed.

(** C10: whatever the request and the store, [review_card] leaves the
    decks as they are and keeps, card by card, the [_id], [deck_id],
    [front] and [back] of every card document: it writes the five
    scheduling fields [ease_factor], [repetitions], [interval],
    [last_reviewed] and [next_review] only. *)
Theorem review_frame (payload : CardReview) (now_next now_last : datetime)
    (db : Db) :
  let db' := snd (review_card payload now_next now_last db) in
  db_deck db' = db_deck db
  /\ Forall2 same_content (db_card db) (db_card db').
Proof.
  cbv zeta.
  destruct (review_card payload now_next now_last db) as [[resp|e] db'] eqn:E.
  - apply review_card_returns in E
      as (oid & doc & st & _ & _ & _ & _ & _ & _ & _ & _ & _ & _ & Hd & Hc).
    cbn [snd]. split; [exact Hd|]. rewrite Hc.
    eapply Forall2_impl; [|apply update_one_pointwise].
    intros d d' [Hid [Hf|Hf]]; unfold same_content; rewrite Hf; cbn; auto.
  - pose proof (review_card_raises payload now_next now_last db e) as Hr.
    rewrite E in Hr. cbn in Hr. cbn [snd]. rewrite Hr by reflexivity.
    split; [reflexivity|apply same_content_refl].
Qed.

Lemma review_frame_witness :
  db_deck (snd (review_card {| card_id := sample_card_id; quality := 4 |}
                  sample_now sample_now (sample_db_with Float64.c_2_5 2 6)))
  = db_deck (sample_db_with Float64.c_2_5 2 6)
  /\ Forall2 same_content
       (db_card (sample_db_with Float64.c_2_5 2 6))
       (db_card (snd (review_card {| card_id := sample_card_id; quality := 4 |}
                        sample_now sample_now
                        (sample_db_with Float64.c_2_5 2 6)))).
Proof.
  exact (review_frame {| card_id := sample_card_id; quality := 4 |}
           sample_now sample_now (sample_db_with Float64.c_2_5 2 6)).
Defined.

(** * Further properties of the handlers *)

(** ** Failures of [review_card] *)



(** ** The one document a review writes *)



(** ** Listing cards *)

Lemma list_cards_eq (deck_id_param : option string) (due_only : bool)
    (now : datetime) (db : Db) :
  list_cards deck_id_param due_only now db
  = map to_item
      (filter (fun d => negb due_only || is_due now (fields d))
         (get_documents_card (deck_query deck_id_param) db)).
Proof. unfold list_cards. rewrite collect_items_spec. reflexivity. Qed.

Lemma is_due_later (now now' : datetime) (c : Card) :
  now <= now' -> is_due now c = true -> is_due now' c = true.
Proof.
  unfold is_due. destruct (next_review c) as [t|]; [|reflexivity].
  rewrite !Z.leb_le. lia.
Qed.

(** X3: the cards listed with [due_only] are among the cards listed
    without it, and a card that is due at one time is due at every later
    time. *)
Theorem due_cards_stay_due (deck_id_param : option string)
    (now now' : datetime) (db : Db) (x : card_item) :
  In x (list_cards deck_id_param true now db) ->
  In x (list_cards deck_id_param false now db)
  /\ (now <= now' -> In x (list_cards deck_id_param true now' db)).
Proof.
  rewrite !list_cards_eq, !in_map_iff.
  intros (d & <- & Hin). apply filter_In in Hin as [Hin Hdue].
  cbn in Hdue. split.
  - exists d. split; [reflexivity|]. apply filter_In. auto.
  - intros Hle. exists d. split; [reflexivity|]. apply filter_In.
    split; [exact Hin|]. cbn. apply (is_due_later now now'); assumption.
Qed.

Lemma due_cards_stay_due_witness :
  In (to_item (sample_scheduled "64b7f0c2a1e4d5f6a7b8c9d2"
                 (Some (sample_now - microseconds_per_day))))
     (list_cards None true sample_now sample_due_db)
  /\ In (to_item (sample_scheduled "64b7f0c2a1e4d5f6a7b8c9d2"
                    (Some (sample_now - microseconds_per_day))))
        (list_cards None true (sample_now + 1) sample_due_db).
Proof.
  assert (H : In (to_item (sample_scheduled "64b7f0c2a1e4d5f6a7b8c9d2"
                             (Some (sample_now - microseconds_per_day))))
                 (list_cards None true sample_now sample_due_db))
    by (vm_compute; auto).
  split; [exact H|].
  apply (due_cards_stay_due None sample_now (sample_now + 1) sample_due_db _ H).
  lia.
Defined.



(** ** A review and the listings *)



Lemma update_one_filter_faces (oid : ObjectId) (u : Card -> Card)
    (p : Card -> bool) (g : document Card -> string * string * string * string)
    (coll : list (document Card)) :
  (forall c, p (u c) = p c) ->
  (forall d, g {| _id := _id d; fields := u (fields d) |} = g d) ->
  map g (filter (fun d => p (fields d)) (update_one oid u coll))
  = map g (filter (fun d => p (fields d)) coll).
Proof.
  intros Hp Hg. induction coll as [|x rest IH]; cbn; [reflexivity|].
  destruct (ObjectId_eqb (_id x) oid); cbn.
  - rewrite Hp. destruct (p (fields x)); cbn; [|reflexivity].
    rewrite Hg. reflexivity.
  - destruct (p (fields x)); cbn; rewrite IH; reflexivity.
Qed.

(** X6: a call of [review_card], returning or raising, changes neither
    which cards a listing without [due_only] holds, nor their order,
    nor the [id], [deck_id], [front] and [back] of any of them, whatever
    the [deck_id] filter. *)
Theorem review_keeps_listing (payload : CardReview)
    (now_next now_last now : datetime) (db : Db)
    (deck_id_param : option string) :
  let face := fun x => (id x, deck_id (item x), front (item x), back (item x)) in
  map face (list_cards deck_id_param false now
              (snd (review_card payload now_next now_last db)))
  = map face (list_cards deck_id_param false now db).
Proof.
  cbv zeta.
  destruct (review_card payload now_next now_last db) as [[resp|e] db'] eqn:E.
  - apply review_card_returns in E
      as (oid & doc & st & _ & _ & _ & _ & _ & _ & _ & _ & _ & _ & _ & Hc).
    cbn [snd]. rewrite !list_cards_eq, !map_map. cbn [negb orb].
    assert (Htrue : forall l : list (document Card),
               filter (fun _ => true) l = l).
    { induction l as [|a l IH]; cbn; congruence. }
    rewrite !Htrue.
    destruct (deck_query deck_id_param) as [v|]; cbn [get_documents_card];
      rewrite Hc.
    + apply (update_one_filter_faces oid _
               (fun c => String.eqb (deck_id c) v)); reflexivity.
    + pose proof (update_one_filter_faces oid
                    (fun c => reviewed c st now_last (r_next_review resp))
                    (fun _ => true)
                    (fun d => (id (to_item d), deck_id (item (to_item d)),
                               front (item (to_item d)),
                               back (item (to_item d))))
                    (db_card db)) as H.
      cbn in H. rewrite !Htrue in H. apply H; reflexivity.
  - pose proof (review_card_raises payload now_next now_last db e) as Hr.
    rewrite E in Hr. cbn in Hr. cbn [snd]. rewrite Hr by reflexivity.
    reflexivity.
Qed.

Lemma review_keeps_listing_witness :
  map (fun x => (id x, deck_id (item x), front (item x), back (item x)))
      (list_cards (Some sample_deck_id) false sample_now
         (snd (review_card {| card_id := sample_card_id; quality := 0 |}
                 sample_now sample_now sample_due_db)))
  = [ (sample_card_id, sample_deck_id, "chien", "dog");
      ("64b7f0c2a1e4d5f6a7b8c9d2", sample_deck_id, "chien", "dog");
      ("64b7f0c2a1e4d5f6a7b8c9d3", sample_deck_id, "chien", "dog") ]%string.
Proof.
  rewrite (review_keeps_listing {| card_id := sample_card_id; quality := 0 |}
             sample_now sample_now sample_now sample_due_db
             (Some sample_deck_id)).
  vm_compute. reflexivity.
Defined.

(** ** The ease factor, grade by grade *)

(** X7: a review with quality 3 or more returns an ease factor of at
    least 1.3 whatever ease factor the card had, below 1.3, infinite or
    NaN included. *)
Theorem success_restores_ease_floor (q : Z) (ease : float) (reps iv : Z)
    (st : schedule_state) :
  3 <= q ->
  schedule q ease reps iv = Ok st ->
  Float64.leb Float64.c_1_3 (st_ease st) = true.
Proof.
  intros Hq Hs.
  destruct (schedule_cases _ _ _ _ _ Hs) as [[Hlt _]|(_ & -> & _)]; [lia|].
  apply float_max_floor. reflexivity.
Qed.

Lemma success_restores_ease_floor_witness :
  3 <= 5 /\
  schedule 5 S754_nan 0 0
  = Ok {| st_ease := Float64.c_1_3; st_reps := 1; st_interval := 1 |} /\
  Float64.leb Float64.c_1_3 Float64.c_1_3 = true.
Proof.
  split; [lia|]. split; [vm_compute; reflexivity|].
  apply (success_restores_ease_floor 5 S754_nan 0 0
           {| st_ease := Float64.c_1_3; st_reps := 1; st_interval := 1 |});
    [lia | vm_compute; reflexivity].
Defined.

Lemma leb_not_ltb_eq (a b : float) :
  Float64.leb a b = true -> Float64.ltb a b = false ->
  a = b \/ (exists s s', a = S754_zero s /\ b = S754_zero s').
Proof.
  unfold Float64.leb, Float64.ltb, SFleb, SFltb.
  destruct (SFcompare a b) as [[| |]|] eqn:Hc; try discriminate.
  intros _ _.
  destruct a as [sa|[|]| |[|] ma ea], b as [sb|[|]| |[|] mb eb];
    cbn in Hc; try discriminate; auto; [right; eauto| |]; left;
    (destruct (ea ?= eb) eqn:He; try discriminate);
    apply Z.compare_eq in He; subst eb;
    (destruct (Pos.compare_cont Eq ma mb) eqn:Hm; try discriminate);
    apply (Pos.compare_eq ma mb) in Hm; subst mb; reflexivity.
Qed.

(** X8: among the passing grades, quality 4 leaves an ease factor of at
    least 1.3 exactly as it is, since [0.1 - 1 * (0.08 + 1 * 0.02)] is
    [0.0] in binary64; quality 5 or more returns
    [max(1.3, ease + 0.1)]. *)
Theorem ease_by_passing_grade (q : Z) (ease : float) (reps iv : Z)
    (st : schedule_state) :
  4 <= q ->
  schedule q ease reps iv = Ok st ->
  (q = 4 -> Float64.leb Float64.c_1_3 ease = true -> st_ease st = ease)
  /\ (5 <= q ->
      st_ease st = float_max Float64.c_1_3 (Float64.add ease Float64.c_0_1)).
Proof.
  intros Hq Hs.
  destruct (schedule_cases _ _ _ _ _ Hs) as [[Hlt _]|(_ & He & _)]; [lia|].
  split.
  - intros -> Hease. rewrite He.
    change (ease_delta (clamp_quality 4)) with (S754_zero false).
    assert (Hadd : Float64.add ease (S754_zero false) = ease).
    { destruct ease as [s|[|]| |[|] m e]; cbn in Hease; try discriminate;
        reflexivity. }
    rewrite Hadd. unfold float_max.
    destruct (Float64.ltb Float64.c_1_3 ease) eqn:Hlt; [reflexivity|].
    destruct (leb_not_ltb_eq _ _ Hease Hlt) as [E|(s & s' & E & _)];
      [exact E|discriminate E].
  - intros H5. rewrite He.
    replace (clamp_quality q) with 5 by (unfold clamp_quality; lia).
    reflexivity.
Qed.

Lemma ease_by_passing_grade_witness :
  4 <= 4 /\
  schedule 4 Float64.c_2_6 3 10
  = Ok {| st_ease := Float64.c_2_6; st_reps := 4; st_interval := 26 |}.
Proof.
  split; [lia|].
  assert (Hs : exists st, schedule 4 Float64.c_2_6 3 10 = Ok st
                          /\ st_reps st = 4 /\ st_interval st = 26).
  { eexists. split; [vm_compute; reflexivity|]. split; reflexivity. }
  destruct Hs as (st & Hs & Hr & Hi).
  pose proof (proj1 (ease_by_passing_grade 4 Float64.c_2_6 3 10 st
                       ltac:(lia) Hs) eq_refl eq_refl) as He.
  rewrite Hs. destruct st as [e r i]. cbn in *. subst. reflexivity.
Defined.

(** ** What the grade does not decide *)

(** X9: the grade matters through two thresholds only. Two lapses
    (quality below 3) of the same card give the same result; two passes
    (quality 3 or more) give the same interval and repetitions, and one
    returns when the other does. *)
Theorem grade_thresholds (q q' : Z) (ease : float) (reps iv : Z) :
  (q < 3 -> q' < 3 ->
   schedule q ease reps iv = schedule q' ease reps iv)
  /\ (3 <= q -> 3 <= q' ->
      forall st, schedule q ease reps iv = Ok st ->
                 exists st', schedule q' ease reps iv = Ok st'
                             /\ st_interval st' = st_interval st
                             /\ st_reps st' = st_reps st).
Proof.
  split.
  - intros H H'. rewrite !schedule_lapse by assumption. reflexivity.
  - intros H H' st. rewrite !schedule_success by assumption.
    destruct (if reps =? 0 then Ok 1
              else if reps =? 1 then Ok 6 else grow_interval iv ease)
      as [i|e]; cbn [bind]; [|discriminate].
    intros [= <-]. eexists. split; [reflexivity|]. split; reflexivity.
Qed.

Lemma grade_thresholds_witness :
  schedule 0 Float64.c_2_5 3 10 = schedule 2 Float64.c_2_5 3 10
  /\ exists st', schedule 5 Float64.c_2_5 3 10 = Ok st'
                 /\ st_interval st' = 25 /\ st_reps st' = 4.
Proof.
  destruct (grade_thresholds 0 2 Float64.c_2_5 3 10) as [Hl _].
  destruct (grade_thresholds 3 5 Float64.c_2_5 3 10) as [_ Hp].
  split; [apply Hl; lia|].
  destruct (Hp ltac:(lia) ltac:(lia)
              {| st_ease := float_max Float64.c_1_3
                              (Float64.add Float64.c_2_5 (ease_delta 3));
                 st_reps := 4; st_interval := 25 |})
    as (st' & Hs & Hi & Hr); [vm_compute; reflexivity|].
  exists st'. split; [exact Hs|]. split; assumption.
Defined.

(** ** Reviews that raise *)

(** X10: from the third pass on (quality 3 or more, repetitions neither
    0 nor 1) a card whose stored ease factor is a NaN or an infinity
    cannot be reviewed: [round] raises [ValueError] or [OverflowError],
    whatever the interval. *)
Theorem unordered_ease_raises (q : Z) (ease : float) (reps iv : Z) :
  3 <= q -> reps <> 0 -> reps <> 1 ->
  is_finite ease = false ->
  schedule q ease reps iv = Raise ValueError
  \/ schedule q ease reps iv = Raise OverflowError.
Proof.
  intros Hq H0 H1 Hfin.
  assert (Hg : grow_interval iv ease = Raise ValueError
               \/ grow_interval iv ease = Raise OverflowError).
  { unfold grow_interval, int_mul_float, float_of_int.
    destruct (Float64.of_int iv) as [s|s| |s m e]; cbn [bind];
      destruct ease as [s'|s'| |s' m' e']; try discriminate Hfin;
      cbn; auto. }
  destruct Hg as [Hg|Hg]; [left|right];
    apply schedule_raises; auto.
Qed.

Lemma unordered_ease_raises_witness :
  schedule 4 S754_nan 2 6 = Raise ValueError
  \/ schedule 4 S754_nan 2 6 = Raise OverflowError.
Proof.
  apply (unordered_ease_raises 4 S754_nan 2 6); [lia|lia|lia|reflexivity].
Defined.

(** X11: when the new interval is more than 999999999 days in
    magnitude, or the next review would fall outside the years 1 to
    9999, [review_card] raises [OverflowError] after the schedule is
    computed and before the write: the store is left as it was. *)
Theorem unrepresentable_next_review (payload : CardReview)
    (now_next now_last : datetime) (db : Db) (oid : ObjectId)
    (doc : document Card) (st : schedule_state) :
  ObjectId_of_string (card_id payload) = Ok oid ->
  find_one oid (db_card db) = Some doc ->
  schedule (quality payload) (ease_factor (fields doc))
    (repetitions (fields doc)) (interval (fields doc)) = Ok st ->
  999999999 < Z.abs (st_interval st)
  \/ now_next + st_interval st * microseconds_per_day < datetime_min
  \/ datetime_max < now_next + st_interval st * microseconds_per_day ->
  review_card payload now_next now_last db = (Raise OverflowError, db).
Proof.
  intros Hoid Hfind Hs Hout. unfold review_card.
  rewrite Hoid, Hfind, Hs. cbn [bind]. unfold timedelta_days.
  destruct (Z.leb_spec (Z.abs (st_interval st)) 999999999) as [Habs|Habs];
    cbn [bind]; [|reflexivity].
  unfold datetime_add.
  destruct (Z.leb_spec datetime_min
              (now_next + st_interval st * microseconds_per_day));
    destruct (Z.leb_spec (now_next + st_interval st * microseconds_per_day)
                datetime_max); cbn; try reflexivity.
  exfalso. lia.
Qed.

Lemma unrepresentable_next_review_witness :
  schedule 5 Float64.c_2_5 2 999999999
  = Ok {| st_ease := Float64.c_2_6; st_reps := 3; st_interval := 2499999998 |}
  /\ review_card {| card_id := sample_card_id; quality := 5 |}
       sample_now sample_now (sample_db_with Float64.c_2_5 2 999999999)
     = (Raise OverflowError, sample_db_with Float64.c_2_5 2 999999999).
Proof.
  assert (Hs : schedule 5 Float64.c_2_5 2 999999999
               = Ok {| st_ease := Float64.c_2_6; st_reps := 3;
                       st_interval := 2499999998 |})
    by (vm_compute; reflexivity).
  split; [exact Hs|].
  apply (unrepresentable_next_review
           {| card_id := sample_card_id; quality := 5 |}
           sample_now sample_now (sample_db_with Float64.c_2_5 2 999999999)
           sample_card_oid
           {| _id := sample_card_oid;
              fields := sample_card Float64.c_2_5 2 999999999 |}
           {| st_ease := Float64.c_2_6; st_reps := 3;
              st_interval := 2499999998 |});
    [reflexivity | reflexivity | exact Hs | left; cbn; lia].
Defined.

(** X12: from the third pass on, a stored interval of 0 becomes 1 for
    every ease factor that is a number: the product is a zero, which
    [or 1] replaces. *)
Theorem zero_interval_becomes_one (q : Z) (ease : float) (reps : Z) :
  3 <= q -> reps <> 0 -> reps <> 1 ->
  is_finite ease = true ->
  exists st, schedule q ease reps 0 = Ok st
             /\ st_interval st = 1 /\ st_reps st = reps + 1.
Proof.
  intros Hq H0 H1 Hfin. rewrite schedule_success by exact Hq.
  destruct (Z.eqb_spec reps 0); [contradiction|].
  destruct (Z.eqb_spec reps 1); [contradiction|].
  assert (Hg : grow_interval 0 ease = Ok 1).
  { destruct ease as [s| | |s m e]; try discriminate Hfin; reflexivity. }
  rewrite Hg. cbn [bind]. eexists. split; [reflexivity|].
  split; reflexivity.
Qed.

Lemma zero_interval_becomes_one_witness :
  exists st, schedule 3 Float64.c_1_3 2 0 = Ok st
             /\ st_interval st = 1 /\ st_reps st = 2 + 1.
Proof.
  apply (zero_interval_becomes_one 3 Float64.c_1_3 2);
    [lia|lia|lia|reflexivity].
Defined.

(** ** Reviews in sequence *)

Lemma leb_floor_zero (x : float) :
  Float64.leb Float64.c_1_3 x = true ->
  Float64.leb (Float64.of_int 0) x = true.
Proof.
  destruct x as [s|[|]| |[|] m e]; cbn; trivial; discriminate.
Qed.

Lemma schedule_in_bounds (q : Z) (st st' : schedule_state) :
  in_bounds st ->
  schedule q (st_ease st) (st_reps st) (st_interval st) = Ok st' ->
  in_bounds st' /\ 1 <= st_interval st'.
Proof.
  intros (He & Hi & Hr) Hs.
  assert (Hpos : 1 <= st_interval st').
  { eapply schedule_interval_positive; [exact Hi| |exact Hs].
    apply leb_floor_zero. exact He. }
  split; [|exact Hpos]. split; [|split].
  - eapply schedule_ease_floor; [exact He|exact Hs].
  - lia.
  - destruct (schedule_cases _ _ _ _ _ Hs) as [[_ ->]|(_ & _ & -> & _)];
      cbn; lia.
Qed.

(** X13: starting from a state with ease factor at least 1.3, interval
    at least 0 and repetitions at least 0 (a fresh card is one), every
    run of reviews that returns, of whatever grades, ends in such a
    state again; after at least one review the interval is at least
    1. *)
Theorem review_sequence_in_bounds (qualities : list Z)
    (st st' : schedule_state) :
  in_bounds st ->
  review_sequence qualities st = Ok st' ->
  in_bounds st' /\ (qualities <> [] -> 1 <= st_interval st').
Proof.
  revert st. induction qualities as [|q rest IH]; intros st Hb; cbn.
  - intros [= <-]. split; [exact Hb|]. intros H. contradiction.
  - destruct (schedule q _ _ _) as [st1|] eqn:Hs; cbn [bind]; [|discriminate].
    intros Hrest.
    destruct (schedule_in_bounds q st st1 Hb Hs) as [Hb1 Hp1].
    destruct (IH st1 Hb1 Hrest) as [Hb' Hp'].
    split; [exact Hb'|]. intros _.
    destruct rest as [|q' rest']; [|apply Hp'; discriminate].
    cbn in Hrest. injection Hrest as <-. exact Hp1.
Qed.

Lemma review_sequence_in_bounds_witness :
  in_bounds {| st_ease := Float64.c_2_5; st_reps := 0; st_interval := 0 |}
  /\ review_sequence [5; 3; 3; 0; 4]
       {| st_ease := Float64.c_2_5; st_reps := 0; st_interval := 0 |}
     = Ok {| st_ease := S754_finite false 5224175567749775 (-51);
             st_reps := 1; st_interval := 1 |}
  /\ in_bounds {| st_ease := S754_finite false 5224175567749775 (-51);
                  st_reps := 1; st_interval := 1 |}.
Proof.
  assert (Hb : in_bounds {| st_ease := Float64.c_2_5; st_reps := 0;
                            st_interval := 0 |}).
  { split; [reflexivity|]. cbn. lia. }
  split; [exact Hb|]. split; [vm_compute; reflexivity|].
  apply (review_sequence_in_bounds [5; 3; 3; 0; 4] _ _ Hb).
  vm_compute. reflexivity.
Defined.

Lemma review_sequence_app (qs qs' : list Z) (st : schedule_state) :
  review_sequence (qs ++ qs') st
  = (st1 <- review_sequence qs st ;; review_sequence qs' st1).
Proof.
  revert st. induction qs as [|q rest IH]; intros st; cbn; [reflexivity|].
  destruct (schedule q _ _ _) as [st1|]; cbn [bind]; [apply IH|reflexivity].
Qed.

Lemma review_sequence_passes (qs : list Z) (st st' : schedule_state) :
  Forall (fun q => 3 <= q) qs ->
  review_sequence qs st = Ok st' ->
  st_reps st' = st_reps st + Z.of_nat (List.length qs).
Proof.
  intros Hall. revert st.
  induction Hall as [|q rest Hq Hrest IH]; intros st; cbn [review_sequence].
  - intros [= <-]. cbn. lia.
  - destruct (schedule q _ _ _) as [st1|] eqn:Hs; cbn [bind]; [|discriminate].
    intros H. rewrite (IH _ H).
    destruct (schedule_cases _ _ _ _ _ Hs) as [[Hlt _]|(_ & _ & -> & _)];
      [lia|]. cbn [List.length]. lia.
Qed.

(** X14: [repetitions] counts the passes since the last lapse. A run of
    passes (quality 3 or more) that returns adds their number to the
    repetitions; a run made of any reviews, then a lapse, then passes
    ends with as many repetitions as there are passes after the
    lapse. *)
Theorem repetitions_count_passes (before passes : list Z) (lapse : Z)
    (st st' : schedule_state) :
  Forall (fun q => 3 <= q) passes ->
  (review_sequence passes st = Ok st' ->
   st_reps st' = st_reps st + Z.of_nat (List.length passes))
  /\ (lapse < 3 ->
      review_sequence (before ++ lapse :: passes) st = Ok st' ->
      st_reps st' = Z.of_nat (List.length passes)).
Proof.
  intros Hall. split.
  - apply review_sequence_passes. exact Hall.
  - intros Hl. rewrite review_sequence_app.
    destruct (review_sequence before st) as [st1|]; cbn [bind];
      [|discriminate].
    cbn [review_sequence]. rewrite schedule_lapse by exact Hl. cbn [bind].
    intros H. rewrite (review_sequence_passes _ _ _ Hall H). reflexivity.
Qed.

Lemma repetitions_count_passes_witness :
  Forall (fun q => 3 <= q) [4; 5; 3]
  /\ review_sequence ([5; 5] ++ 1 :: [4; 5; 3])
       {| st_ease := Float64.c_2_5; st_reps := 0; st_interval := 0 |}
     = Ok {| st_ease := S754_finite false 5989787504402760 (-51);
             st_reps := 3; st_interval := 17 |}
  /\ 3 = Z.of_nat (List.length [4; 5; 3]).
Proof.
  assert (Hall : Forall (fun q => 3 <= q) [4; 5; 3])
    by (repeat constructor; lia).
  split; [exact Hall|]. split; [vm_compute; reflexivity|].
  apply (proj2 (repetitions_count_passes [5; 5] [4; 5; 3] 1
                  {| st_ease := Float64.c_2_5; st_reps := 0;
                     st_interval := 0 |}
                  {| st_ease := S754_finite false 5989787504402760 (-51);
                     st_reps := 3; st_interval := 17 |} Hall));
    [lia | vm_compute; reflexivity].
Defined.

(** ** [ObjectIdStr.validate] *)



(** ** Insert, then look up *)











(** ** Decks *)



(** ** The [deck_id] of a card is kept as it was sent *)



(** ** Study sessions *)


